(** * feedback-meeting-processor: a shallow embedding of [src/server/main.py]

    The server receives JSON (through [request.json()] or a pydantic model)
    and hands Python dicts and lists to [generate_html_widget], to the
    JSON-RPC handlers and to the REST handler.  We model those Python
    values as [json] below, the exceptions the code can raise as [py_exc],
    and every function that may raise as returning [result]. *)

From Stdlib Require Import String Ascii List Bool ZArith NArith DecimalString Lia.

#[local] Set Warnings "-register-all".
Import ListNotations.
Open Scope string_scope.

(** ** Python values produced by [json.loads]

    Objects are association lists in insertion order; [json.loads] keeps
    one entry per key.  JSON numbers are modelled as Python [int]s. *)
Inductive json : Type :=
| JNull
| JBool (b : bool)
| JInt (z : Z)
| JStr (s : string)
| JArr (xs : list json)
| JObj (kvs : list (string * json)).

(** ** Exceptions and the result monad *)
Inductive py_exc : Type :=
| AttributeError (msg : string)
| TypeError (msg : string)
| ValidationError (msg : string).

Inductive result (A : Type) : Type :=
| Ok (a : A)
| Raise (e : py_exc).
Arguments Ok {A} a.
Arguments Raise {A} e.

Definition bind {A B : Type} (m : result A) (f : A -> result B) : result B :=
  match m with
  | Ok a => f a
  | Raise e => Raise e
  end.

Notation "'let*' x := m 'in' f" := (bind m (fun x => f))
  (at level 200, x name, m at level 100, f at level 200).

(** [str(e)] of the exceptions raised below. *)
Definition str_exc (e : py_exc) : string :=
  match e with
  | AttributeError m => m
  | TypeError m => m
  | ValidationError m => m
  end.

(** ** Small string helpers *)
Definition chr (n : nat) : string := String (ascii_of_nat n) EmptyString.
Definition dq : string := chr 34.
Definition sq : string := chr 39.

(** The HTML templates of the source are written with a backquote in place
    of each double quote (the source contains no backquote); [tpl] puts the
    double quotes back. *)
Fixpoint tpl (s : string) : string :=
  match s with
  | EmptyString => EmptyString
  | String c rest =>
      if Ascii.eqb c "`"%char then dq ++ tpl rest else String c (tpl rest)
  end.

Fixpoint join (sep : string) (xs : list string) : string :=
  match xs with
  | [] => EmptyString
  | [x] => x
  | x :: rest => x ++ sep ++ join sep rest
  end.

(** [str(n)] of a Python int. *)
Definition str_nat (n : nat) : string := NilZero.string_of_uint (N.to_uint (N.of_nat n)).
Definition str_int (z : Z) : string :=
  if (z <? 0)%Z then "-" ++ NilZero.string_of_uint (N.to_uint (Z.abs_N z))
  else NilZero.string_of_uint (N.to_uint (Z.abs_N z)).

(** ** [str] and [repr] of Python values *)

Definition hex_digit (n : nat) : string :=
  chr (if Nat.ltb n 10 then 48 + n else 87 + n).

(** Escape of one byte inside [repr] of a [str] quoted with [q]
    (non-ASCII bytes are kept: printable code points are not escaped). *)
Definition repr_char (q : ascii) (c : ascii) : string :=
  let n := nat_of_ascii c in
  if Ascii.eqb c q then "\" ++ String c EmptyString
  else if Nat.eqb n 92 then "\\"
  else if Nat.eqb n 10 then "\n"
  else if Nat.eqb n 13 then "\r"
  else if Nat.eqb n 9 then "\t"
  else if orb (Nat.ltb n 32) (Nat.eqb n 127)
  then "\x" ++ hex_digit (n / 16) ++ hex_digit (n mod 16)
  else String c EmptyString.

Fixpoint repr_chars (q : ascii) (s : string) : string :=
  match s with
  | EmptyString => EmptyString
  | String c rest => repr_char q c ++ repr_chars q rest
  end.

Fixpoint has_char (c : ascii) (s : string) : bool :=
  match s with
  | EmptyString => false
  | String d rest => Ascii.eqb c d || has_char c rest
  end.

(** [repr(s)]: single quotes, unless [s] contains a single quote and no
    double quote. *)
Definition repr_str (s : string) : string :=
  let q := if has_char (ascii_of_nat 39) s && negb (has_char (ascii_of_nat 34) s)
           then ascii_of_nat 34 else ascii_of_nat 39 in
  String q (repr_chars q s ++ String q EmptyString).

Fixpoint py_repr (v : json) : string :=
  match v with
  | JNull => "None"
  | JBool true => "True"
  | JBool false => "False"
  | JInt z => str_int z
  | JStr s => repr_str s
  | JArr xs => "[" ++ join ", " (map py_repr xs) ++ "]"
  | JObj kvs =>
      "{" ++ join ", " (map (fun kv => repr_str (fst kv) ++ ": " ++ py_repr (snd kv)) kvs)
          ++ "}"
  end.

(** [str(v)], which is what an f-string placeholder prints. *)
Definition py_str (v : json) : string :=
  match v with
  | JStr s => s
  | _ => py_repr v
  end.

Definition type_name (v : json) : string :=
  match v with
  | JNull => "NoneType"
  | JBool _ => "bool"
  | JInt _ => "int"
  | JStr _ => "str"
  | JArr _ => "list"
  | JObj _ => "dict"
  end.

Definition hashable (v : json) : bool :=
  match v with
  | JArr _ | JObj _ => false
  | _ => true
  end.

(** ** Dict operations *)

Fixpoint assoc (kvs : list (string * json)) (k : string) : option json :=
  match kvs with
  | [] => None
  | (k', v) :: rest => if String.eqb k k' then Some v else assoc rest k
  end.

(** [d.get(k, default)] on a dict. *)
Definition dict_get (kvs : list (string * json)) (k : string) (default : json) : json :=
  match assoc kvs k with
  | Some v => v
  | None => default
  end.

(** [d.get(k, default)] on a value that should be a dict. *)
Definition py_get (d : json) (k : string) (default : json) : result json :=
  match d with
  | JObj kvs => Ok (dict_get kvs k default)
  | _ => Raise (AttributeError (sq ++ type_name d ++ sq ++ " object has no attribute 'get'"))
  end.

Definition unhashable (v : json) : py_exc :=
  TypeError ("unhashable type: " ++ sq ++ type_name v ++ sq).

(** [v in d] for a dict [d] whose keys are the strings [keys]. *)
Definition py_in_keys (keys : list string) (v : json) : result bool :=
  if hashable v then
    match v with
    | JStr s => Ok (existsb (String.eqb s) keys)
    | _ => Ok false
    end
  else Raise (unhashable v).

(** [for x in v]: the elements Python iterates over. *)
Definition py_iter (v : json) : result (list json) :=
  match v with
  | JArr xs => Ok xs
  | JStr s => Ok (map (fun c => JStr (String c EmptyString)) (list_ascii_of_string s))
  | JObj kvs => Ok (map (fun kv => JStr (fst kv)) kvs)
  | _ => Raise (TypeError (sq ++ type_name v ++ sq ++ " object is not iterable"))
  end.

(** ** Constants (lines 50-61) *)

Definition CATEGORY_EMOJIS : list (string * string) :=
  [("UI", "🎨"); ("UX", "🧠"); ("Copy", "✍️"); ("Tech", "⚙️")].

Record priority_config := mk_config { emoji : string; label : string; order : nat }.

Definition PRIORITY_CONFIG (k : string) : priority_config :=
  if String.eqb k "critical" then mk_config "🔴" "Crítico" 0
  else if String.eqb k "improvement" then mk_config "🟡" "Mejora" 1
  else mk_config "🟢" "Nice-to-have" 2.

(** [CATEGORY_EMOJIS.get(category, "📌")]: the key must be hashable. *)
Definition category_emoji_get (category : json) : result string :=
  if hashable category then
    match category with
    | JStr s =>
        match find (fun kv => String.eqb s (fst kv)) CATEGORY_EMOJIS with
        | Some kv => Ok (snd kv)
        | None => Ok "📌"
        end
    | _ => Ok "📌"
    end
  else Raise (unhashable category).

(** ** HTML templates of [generate_html_widget], text as in the source *)

(** Card of one item (render_items, lines 129-138); the holes are
    category_emoji, category, the item text and the original quote. *)
Definition card_0 : string := Eval cbv in tpl "
                <div style=`background: #f8fafc; border-radius: 8px; padding: 12px; margin-bottom: 8px; border-left: 3px solid #e2e8f0;`>
                    <div style=`display: flex; align-items: center; gap: 8px; margin-bottom: 6px;`>
                        <span style=`font-size: 14px;`>".
Definition card_1 : string := Eval cbv in tpl "</span>
                        <span style=`font-size: 11px; font-weight: 600; color: #64748b; text-transform: uppercase; letter-spacing: 0.5px;`>".
Definition card_2 : string := Eval cbv in tpl "</span>
                    </div>
                    <p style=`margin: 0 0 8px 0; color: #1e293b; font-size: 14px; line-height: 1.5;`>".
Definition card_3 : string := Eval cbv in tpl "</p>
                    <p style=`margin: 0; font-size: 12px; color: #94a3b8; font-style: italic;`>`".
Definition card_4 : string := Eval cbv in tpl "`</p>
                </div>
            ".
(** Section of one priority (lines 148-161); the holes are the
    priority glyph, its label, the count and the rendered items. *)
Definition section_0 : string := Eval cbv in tpl "
            <div style=`margin-bottom: 20px;`>
                <div style=`display: flex; align-items: center; justify-content: space-between; margin-bottom: 12px; padding-bottom: 8px; border-bottom: 1px solid #e2e8f0;`>
                    <div style=`display: flex; align-items: center; gap: 8px;`>
                        <span style=`font-size: 18px;`>".
Definition section_1 : string := Eval cbv in tpl "</span>
                        <h3 style=`margin: 0; font-size: 16px; font-weight: 600; color: #334155;`>".
Definition section_2 : string := Eval cbv in tpl "</h3>
                    </div>
                    <span style=`background: #e2e8f0; color: #475569; font-size: 12px; font-weight: 600; padding: 2px 8px; border-radius: 12px;`>".
Definition section_3 : string := Eval cbv in tpl "</span>
                </div>
                <div style=`padding-left: 4px;`>
                    ".
Definition section_4 : string := Eval cbv in tpl "
                </div>
            </div>
        ".
(** Document shell (lines 163-203); the holes are total, the three
    counts and the joined priority sections. *)
Definition page_0 : string := Eval cbv in tpl "<!DOCTYPE html>
<html lang=`es`>
<head>
    <meta charset=`UTF-8`>
    <meta name=`viewport` content=`width=device-width, initial-scale=1.0`>
    <title>Feedback de Reunión</title>
</head>
<body style=`margin: 0; padding: 16px; font-family: -apple-system, BlinkMacSystemFont, 'Segoe UI', Roboto, 'Helvetica Neue', Arial, sans-serif; background: #ffffff;`>
    <div style=`max-width: 600px; margin: 0 auto;`>
        <!-- Header -->
        <div style=`background: linear-gradient(135deg, #667eea 0%, #764ba2 100%); border-radius: 12px; padding: 20px; margin-bottom: 20px; color: white;`>
            <h1 style=`margin: 0 0 8px 0; font-size: 20px; font-weight: 700;`>📋 Resumen de Feedback</h1>
            <p style=`margin: 0; font-size: 14px; opacity: 0.9;`>Total de items procesados: <strong>".
Definition page_1 : string := Eval cbv in tpl "</strong></p>
        </div>
        
        <!-- Summary Badges -->
        <div style=`display: flex; gap: 12px; margin-bottom: 20px; flex-wrap: wrap;`>
            <div style=`flex: 1; min-width: 100px; background: #fef2f2; border-radius: 8px; padding: 12px; text-align: center;`>
                <div style=`font-size: 24px; font-weight: 700; color: #dc2626;`>".
Definition page_2 : string := Eval cbv in tpl "</div>
                <div style=`font-size: 11px; color: #991b1b; text-transform: uppercase; letter-spacing: 0.5px;`>Críticos</div>
            </div>
            <div style=`flex: 1; min-width: 100px; background: #fefce8; border-radius: 8px; padding: 12px; text-align: center;`>
                <div style=`font-size: 24px; font-weight: 700; color: #ca8a04;`>".
Definition page_3 : string := Eval cbv in tpl "</div>
                <div style=`font-size: 11px; color: #854d0e; text-transform: uppercase; letter-spacing: 0.5px;`>Mejoras</div>
            </div>
            <div style=`flex: 1; min-width: 100px; background: #f0fdf4; border-radius: 8px; padding: 12px; text-align: center;`>
                <div style=`font-size: 24px; font-weight: 700; color: #16a34a;`>".
Definition page_4 : string := Eval cbv in tpl "</div>
                <div style=`font-size: 11px; color: #166534; text-transform: uppercase; letter-spacing: 0.5px;`>Nice-to-have</div>
            </div>
        </div>
        
        <!-- Priority Sections -->
        ".
Definition page_5 : string := Eval cbv in tpl "
        
        <!-- Footer -->
        <div style=`text-align: center; padding-top: 16px; border-top: 1px solid #e2e8f0;`>
            <p style=`margin: 0; font-size: 11px; color: #94a3b8;`>Generado por Feedback Meeting Processor MCP</p>
        </div>
    </div>
</body>
</html>".

Definition empty_placeholder : string := Eval cbv in
  tpl "<p style=`color: #6b7280; font-style: italic; margin: 0;`>Sin items en esta categoría</p>".

(** ** [generate_html_widget] (lines 106-205) *)

(** The dict [grouped] of lines 110-114, keys in their insertion order. *)
Record grouped := mk_grouped {
  g_critical : list json;
  g_improvement : list json;
  g_nice_to_have : list json }.

Definition grouped_init : grouped := mk_grouped [] [] [].

Definition grouped_keys : list string := ["critical"; "improvement"; "nice_to_have"].

(** [grouped[k]] *)
Definition grouped_get (g : grouped) (k : string) : list json :=
  if String.eqb k "critical" then g_critical g
  else if String.eqb k "improvement" then g_improvement g
  else g_nice_to_have g.

(** [grouped[k].append(x)] for one of the three keys *)
Definition grouped_append (g : grouped) (k : string) (x : json) : grouped :=
  if String.eqb k "critical" then mk_grouped (g_critical g ++ [x]) (g_improvement g) (g_nice_to_have g)
  else if String.eqb k "improvement" then mk_grouped (g_critical g) (g_improvement g ++ [x]) (g_nice_to_have g)
  else mk_grouped (g_critical g) (g_improvement g) (g_nice_to_have g ++ [x]).

(** Lines 111-114. *)
Fixpoint group_loop (items : list json) (g : grouped) : result grouped :=
  match items with
  | [] => Ok g
  | item :: rest =>
      let* priority := py_get item "priority" (JStr "nice_to_have") in
      let* present := py_in_keys grouped_keys priority in
      let g' := if present then
                  match priority with
                  | JStr p => grouped_append g p item
                  | _ => g
                  end
                else g in
      group_loop rest g'
  end.

(** [counts] (line 117) *)
Definition counts (g : grouped) (k : string) : nat := length (grouped_get g k).

(** [total] (line 118) *)
Definition total (g : grouped) : nat :=
  counts g "critical" + counts g "improvement" + counts g "nice_to_have".

(** One card of [render_items] (lines 127-138). *)
Definition render_card (item : json) : result string :=
  let* category := py_get item "category" (JStr "UI") in
  let* category_emoji := category_emoji_get category in
  let* text := py_get item "item" (JStr EmptyString) in
  let* quote := py_get item "original_quote" (JStr EmptyString) in
  Ok (card_0 ++ category_emoji ++ card_1 ++ py_str category ++ card_2
        ++ py_str text ++ card_3 ++ py_str quote ++ card_4).

Fixpoint render_cards (items : list json) : result (list string) :=
  match items with
  | [] => Ok []
  | item :: rest =>
      let* c := render_card item in
      let* cs := render_cards rest in
      Ok (c :: cs)
  end.

(** [render_items] (lines 121-139) *)
Definition render_items (items : list json) : result string :=
  match items with
  | [] => Ok empty_placeholder
  | _ => let* html_items := render_cards items in Ok (String.concat EmptyString html_items)
  end.

(** One entry of [priority_sections] (lines 144-161). *)
Definition render_section (g : grouped) (priority_key : string) : result string :=
  let config := PRIORITY_CONFIG priority_key in
  let items := grouped_get g priority_key in
  let count := counts g priority_key in
  let* rendered := render_items items in
  Ok (section_0 ++ emoji config ++ section_1 ++ label config ++ section_2
        ++ str_nat count ++ section_3 ++ rendered ++ section_4).

Fixpoint render_sections (g : grouped) (keys : list string) : result (list string) :=
  match keys with
  | [] => Ok []
  | k :: rest =>
      let* s := render_section g k in
      let* ss := render_sections g rest in
      Ok (s :: ss)
  end.

(** Lines 142-203, from the grouped items. *)
Definition render_widget (g : grouped) : result string :=
  let* priority_sections := render_sections g ["critical"; "improvement"; "nice_to_have"] in
  Ok (page_0 ++ str_nat (total g) ++ page_1 ++ str_nat (counts g "critical")
        ++ page_2 ++ str_nat (counts g "improvement") ++ page_3
        ++ str_nat (counts g "nice_to_have") ++ page_4
        ++ String.concat EmptyString priority_sections ++ page_5).

Definition generate_html_widget (feedback_items : json) : result string :=
  let* xs := py_iter feedback_items in
  let* g := group_loop xs grouped_init in
  render_widget g.

(** ** [TOOL_DEFINITION] (lines 63-100) *)

Definition TOOL_DEFINITION : json :=
  JObj [
    ("name", JStr "process_meeting_feedback");
    ("description", JStr "Procesa items de feedback de reuniones y los muestra agrupados por prioridad con categorías visuales");
    ("inputSchema", JObj [
      ("type", JStr "object");
      ("properties", JObj [
        ("feedback_items", JObj [
          ("type", JStr "array");
          ("description", JStr "Lista de items de feedback extraídos de la transcripción");
          ("items", JObj [
            ("type", JStr "object");
            ("properties", JObj [
              ("item", JObj [
                ("type", JStr "string");
                ("description", JStr "Descripción del punto de feedback")]);
              ("category", JObj [
                ("type", JStr "string");
                ("enum", JArr [JStr "UI"; JStr "UX"; JStr "Copy"; JStr "Tech"]);
                ("description", JStr "Categoría del feedback")]);
              ("priority", JObj [
                ("type", JStr "string");
                ("enum", JArr [JStr "critical"; JStr "improvement"; JStr "nice_to_have"]);
                ("description", JStr "Nivel de prioridad")]);
              ("original_quote", JObj [
                ("type", JStr "string");
                ("description", JStr "Frase original de donde se extrae el feedback")])]);
            ("required", JArr [JStr "item"; JStr "category"; JStr "priority"; JStr "original_quote"])])])]);
      ("required", JArr [JStr "feedback_items"])])].

(** ** MCP handlers (lines 211-265) *)

Definition handle_tools_list : json :=
  JObj [("tools", JArr [TOOL_DEFINITION])].

Definition text_content (msg : string) : json :=
  JArr [JObj [("type", JStr "text"); ("text", JStr msg)]].

(** [handle_tools_call]; [params] is the dict [rpc_request.params or {}]. *)
Definition handle_tools_call (params : list (string * json)) : json :=
  let tool_name := dict_get params "name" JNull in
  let arguments := dict_get params "arguments" (JObj []) in
  let known := match tool_name with
               | JStr s => String.eqb s "process_meeting_feedback"
               | _ => false
               end in
  if negb known then
    JObj [("isError", JBool true);
          ("content", text_content ("Unknown tool: " ++ py_str tool_name))]
  else
    (* the try block of lines 231-252 *)
    match (let* feedback_items := py_get arguments "feedback_items" (JArr []) in
           generate_html_widget feedback_items) with
    | Ok html_widget =>
        JObj [("content", JArr [JObj [
          ("type", JStr "resource");
          ("resource", JObj [("uri", JStr "feedback://widget");
                             ("mimeType", JStr "text/html+skybridge");
                             ("text", JStr html_widget)])]])]
    | Raise e =>
        JObj [("isError", JBool true);
              ("content", text_content ("Error processing feedback: " ++ str_exc e))]
    end.

Definition handle_initialize : json :=
  JObj [("protocolVersion", JStr "2024-11-05");
        ("capabilities", JObj [("tools", JObj [])]);
        ("serverInfo", JObj [("name", JStr "feedback-meeting-processor");
                             ("version", JStr "1.0.0")])].

(** ** The JSON-RPC envelope [JsonRpcRequest] (lines 40-44) *)

Inductive rpc_id : Type :=
| IdInt (z : Z)
| IdStr (s : string).

Record JsonRpcRequest := mk_request {
  jsonrpc : string;
  method : string;
  params : option (list (string * json));
  id : option rpc_id }.

Definition id_json (i : option rpc_id) : json :=
  match i with
  | None => JNull
  | Some (IdInt z) => JInt z
  | Some (IdStr s) => JStr s
  end.

Definition field_error (field : string) (why : string) : py_exc :=
  ValidationError ("1 validation error for JsonRpcRequest" ++ chr 10 ++ field ++ chr 10 ++ "  " ++ why).

(** [JsonRpcRequest] applied to the keys of a body returned by [request.json()], with
    pydantic 2's lax validation: [str] fields take [str] only, the
    [Optional[Union[int, str]]] id keeps ints and strs as they are (a bool
    becomes an int), [params] must be a dict or null, extra keys are
    ignored.  A body that is not a dict cannot be unpacked as keyword arguments. *)
Definition JsonRpcRequest_of (body : json) : result JsonRpcRequest :=
  match body with
  | JObj kvs =>
      let* jsonrpc :=
        match assoc kvs "jsonrpc" with
        | None => Ok "2.0"
        | Some (JStr s) => Ok s
        | Some _ => Raise (field_error "jsonrpc" "Input should be a valid string")
        end in
      let* method :=
        match assoc kvs "method" with
        | None => Raise (field_error "method" "Field required")
        | Some (JStr s) => Ok s
        | Some _ => Raise (field_error "method" "Input should be a valid string")
        end in
      let* params :=
        match assoc kvs "params" with
        | None | Some JNull => Ok None
        | Some (JObj p) => Ok (Some p)
        | Some _ => Raise (field_error "params" "Input should be a valid dictionary")
        end in
      let* id :=
        match assoc kvs "id" with
        | None | Some JNull => Ok None
        | Some (JInt z) => Ok (Some (IdInt z))
        | Some (JStr s) => Ok (Some (IdStr s))
        | Some (JBool b) => Ok (Some (IdInt (if b then 1 else 0)%Z))
        | Some _ => Raise (field_error "id" "Input should be a valid integer or string")
        end in
      Ok (mk_request jsonrpc method params id)
  | _ => Raise (TypeError ("JsonRpcRequest() argument after ** must be a mapping, not "
                            ++ type_name body))
  end.

(** ** [mcp_endpoint] (lines 271-311) *)

(** Lines 284-311, once the envelope is built. *)
Definition mcp_dispatch (rpc_request : JsonRpcRequest) : json :=
  let method := method rpc_request in
  let params := match params rpc_request with Some p => p | None => [] end in
  let request_id := id_json (id rpc_request) in
  if String.eqb method "notifications/initialized" then
    JObj [("jsonrpc", JStr "2.0"); ("result", JObj []); ("id", request_id)]
  else
    let outcome : json + json :=
      if String.eqb method "initialize" then inl handle_initialize
      else if String.eqb method "tools/list" then inl handle_tools_list
      else if String.eqb method "tools/call" then inl (handle_tools_call params)
      else inr (JObj [("code", JInt (-32601)%Z);
                      ("message", JStr ("Method not found: " ++ method))]) in
    match outcome with
    | inr error => JObj [("jsonrpc", JStr "2.0"); ("id", request_id); ("error", error)]
    | inl result => JObj [("jsonrpc", JStr "2.0"); ("id", request_id); ("result", result)]
    end.

(** The whole endpoint: [None] is a body that [request.json()] cannot
    parse; [Raise] is an exception leaving the endpoint. *)
Definition mcp_endpoint (body : option json) : result json :=
  match body with
  | None =>
      Ok (JObj [("jsonrpc", JStr "2.0");
                ("error", JObj [("code", JInt (-32700)%Z); ("message", JStr "Parse error")]);
                ("id", JNull)])
  | Some b =>
      let* rpc_request := JsonRpcRequest_of b in
      Ok (mcp_dispatch rpc_request)
  end.

(** ** REST endpoint [process_feedback] (lines 335-378) *)

Inductive Category := UI | UX | Copy | Tech.
Inductive Priority := critical | improvement | nice_to_have.

Definition category_str (c : Category) : string :=
  match c with UI => "UI" | UX => "UX" | Copy => "Copy" | Tech => "Tech" end.

Definition priority_str (p : Priority) : string :=
  match p with
  | critical => "critical"
  | improvement => "improvement"
  | nice_to_have => "nice_to_have"
  end.

(** [FeedbackItem] (lines 31-35): the pydantic model admits only the
    closed enumerations. *)
Record FeedbackItem := mk_item {
  item : string;
  category : Category;
  priority : Priority;
  original_quote : string }.

(** [item.dict()] *)
Definition item_dict (x : FeedbackItem) : json :=
  JObj [("item", JStr (item x));
        ("category", JStr (category_str (category x)));
        ("priority", JStr (priority_str (priority x)));
        ("original_quote", JStr (original_quote x))].

Record FeedbackResponse := mk_response {
  success : bool;
  total_items : nat;
  critical_count : nat;
  improvement_count : nat;
  nice_to_have_count : nat;
  html_widget : string }.

(** The dict [counts] of lines 365-369. *)
Record rest_counts := mk_counts { c_critical : nat; c_improvement : nat; c_nice_to_have : nat }.

Definition rest_counts_incr (c : rest_counts) (k : string) : rest_counts :=
  if String.eqb k "critical" then mk_counts (S (c_critical c)) (c_improvement c) (c_nice_to_have c)
  else if String.eqb k "improvement" then mk_counts (c_critical c) (S (c_improvement c)) (c_nice_to_have c)
  else mk_counts (c_critical c) (c_improvement c) (S (c_nice_to_have c)).

(** The counting loop of lines 366-369. *)
Fixpoint count_loop (items : list json) (c : rest_counts) : result rest_counts :=
  match items with
  | [] => Ok c
  | item :: rest =>
      let* priority := py_get item "priority" (JStr "nice_to_have") in
      let* present := py_in_keys grouped_keys priority in
      let c' := if present then
                  match priority with
                  | JStr p => rest_counts_incr c p
                  | _ => c
                  end
                else c in
      count_loop rest c'
  end.

Definition process_feedback (feedback_items_req : list FeedbackItem) : result FeedbackResponse :=
  let feedback_items := map item_dict feedback_items_req in
  let* html_widget := generate_html_widget (JArr feedback_items) in
  let* counts := count_loop feedback_items (mk_counts 0 0 0) in
  Ok (mk_response true (length feedback_items) (c_critical counts)
        (c_improvement counts) (c_nice_to_have counts) html_widget).

(** ** JSON Schema, as a client of [tools/list] reads [inputSchema]

    The keywords the catalog uses ([type], [properties], [required],
    [items], [enum]) and the two that bound arrays and objects further
    ([minItems], [additionalProperties: false]); other keywords, such as
    [description], do not constrain the instance. *)

Fixpoint json_eqb (a b : json) {struct a} : bool :=
  match a, b with
  | JNull, JNull => true
  | JBool x, JBool y => Bool.eqb x y
  | JInt x, JInt y => Z.eqb x y
  | JStr x, JStr y => String.eqb x y
  | JArr xs, JArr ys =>
      (fix go (xs ys : list json) : bool :=
         match xs, ys with
         | [], [] => true
         | x :: xs', y :: ys' => json_eqb x y && go xs' ys'
         | _, _ => false
         end) xs ys
  | JObj xs, JObj ys =>
      (fix go (xs ys : list (string * json)) : bool :=
         match xs, ys with
         | [], [] => true
         | (k, x) :: xs', (l, y) :: ys' => String.eqb k l && json_eqb x y && go xs' ys'
         | _, _ => false
         end) xs ys
  | _, _ => false
  end.

Definition type_ok (t : json) (v : json) : bool :=
  match t, v with
  | JStr "object", JObj _ | JStr "array", JArr _ | JStr "string", JStr _
  | JStr "integer", JInt _ | JStr "number", JInt _ | JStr "boolean", JBool _
  | JStr "null", JNull => true
  | JStr _, _ => false
  | _, _ => true
  end.

Definition enum_ok (allowed : json) (v : json) : bool :=
  match allowed with
  | JArr xs => existsb (json_eqb v) xs
  | _ => true
  end.

Definition required_ok (names : json) (v : json) : bool :=
  match names, v with
  | JArr ns, JObj kvs =>
      forallb (fun n => match n with
                        | JStr k => match assoc kvs k with Some _ => true | None => false end
                        | _ => true
                        end) ns
  | _, _ => true
  end.

Definition min_items_ok (n : json) (v : json) : bool :=
  match n, v with
  | JInt m, JArr xs => Z.leb m (Z.of_nat (length xs))
  | _, _ => true
  end.

(** [additionalProperties: false] next to the schema's [properties]. *)
Definition additional_ok (flag : json) (kws : list (string * json)) (v : json) : bool :=
  match flag, v with
  | JBool false, JObj kvs =>
      let declared := match assoc kws "properties" with
                      | Some (JObj props) => map fst props
                      | _ => []
                      end in
      forallb (fun kv => existsb (String.eqb (fst kv)) declared) kvs
  | _, _ => true
  end.

Fixpoint schema_valid (s : json) (v : json) {struct s} : bool :=
  match s with
  | JBool b => b
  | JObj kws =>
      (fix all_keywords (ks : list (string * json)) : bool :=
         match ks with
         | [] => true
         | (k, arg) :: rest =>
             (if String.eqb k "type" then type_ok arg v
              else if String.eqb k "enum" then enum_ok arg v
              else if String.eqb k "required" then required_ok arg v
              else if String.eqb k "minItems" then min_items_ok arg v
              else if String.eqb k "additionalProperties" then additional_ok arg kws v
              else if String.eqb k "properties" then
                match arg, v with
                | JObj props, JObj kvs =>
                    (fix all_props (ps : list (string * json)) : bool :=
                       match ps with
                       | [] => true
                       | (pk, ps_schema) :: ps' =>
                           match assoc kvs pk with
                           | Some pv => schema_valid ps_schema pv
                           | None => true
                           end && all_props ps'
                       end) props
                | _, _ => true
                end
              else if String.eqb k "items" then
                match v with
                | JArr xs => forallb (schema_valid arg) xs
                | _ => true
                end
              else true) && all_keywords rest
         end) kws
  | _ => true
  end.

Definition input_schema : json := dict_get (match TOOL_DEFINITION with JObj t => t | _ => [] end) "inputSchema" JNull.

(** The schema of one element of [feedback_items] inside [input_schema]. *)
Definition feedback_item_schema : json := Eval cbv in
  match input_schema with
  | JObj s =>
      match dict_get s "properties" JNull with
      | JObj p =>
          match dict_get p "feedback_items" JNull with
          | JObj a => dict_get a "items" JNull
          | _ => JNull
          end
      | _ => JNull
      end
  | _ => JNull
  end.

(** ** Vocabulary of the properties *)

(** The priority [item.get("priority", "nice_to_have")] of a record. *)
Definition item_priority (x : json) : json :=
  match x with
  | JObj kvs => dict_get kvs "priority" (JStr "nice_to_have")
  | _ => JNull
  end.

(** A record (a dict) whose priority, when present, is a hashable value. *)
Definition priority_tolerated (x : json) : bool :=
  match x with
  | JObj kvs => match assoc kvs "priority" with Some v => hashable v | None => true end
  | _ => false
  end.

Definition in_bucket (k : string) (x : json) : bool :=
  match item_priority x with
  | JStr p => String.eqb p k
  | _ => false
  end.

Definition recognized (x : json) : bool :=
  match item_priority x with
  | JStr p => existsb (String.eqb p) grouped_keys
  | _ => false
  end.

Definition grouped_sizes (g : grouped) : rest_counts :=
  mk_counts (counts g "critical") (counts g "improvement") (counts g "nice_to_have").

(** A record (a dict) whose category, when present, is a hashable value. *)
Definition card_tolerated (x : json) : bool :=
  match x with
  | JObj kvs => match assoc kvs "category" with Some v => hashable v | None => true end
  | _ => false
  end.

(** The text a card shows for field [k]: [str] of its value, or the
    empty string when it is missing. *)
Definition text_or_empty (kvs : list (string * json)) (k : string) : string :=
  match assoc kvs k with
  | Some v => py_str v
  | None => EmptyString
  end.

(** A feedback record as the catalog describes it: a dict carrying the
    four fields as strings, category and priority among the enumerations
    of [FeedbackItem]; nothing is said about further keys. *)
Definition record_conforms (x : json) : Prop :=
  exists fields, x = JObj fields /\
    (exists s, assoc fields "item" = Some (JStr s)) /\
    (exists c, assoc fields "category" = Some (JStr (category_str c))) /\
    (exists p, assoc fields "priority" = Some (JStr (priority_str p))) /\
    (exists s, assoc fields "original_quote" = Some (JStr s)).

(** Tool arguments as the catalog describes them: a dict whose
    [feedback_items] is an array of feedback records. *)
Definition arguments_conform (v : json) : Prop :=
  exists kvs xs, v = JObj kvs /\ assoc kvs "feedback_items" = Some (JArr xs) /\
    Forall record_conforms xs.

(** The section of one priority whose bucket is empty. *)
Definition empty_section (glyph label : string) : string :=
  section_0 ++ glyph ++ section_1 ++ label ++ section_2 ++ "0" ++ section_3
    ++ empty_placeholder ++ section_4.

(** The widget with no item: total 0, three badges at 0, three empty
    sections. *)
Definition empty_widget_html : string :=
  page_0 ++ "0" ++ page_1 ++ "0" ++ page_2 ++ "0" ++ page_3 ++ "0" ++ page_4
    ++ empty_section "🔴" "Crítico" ++ empty_section "🟡" "Mejora"
    ++ empty_section "🟢" "Nice-to-have" ++ page_5.

(** The tool result wrapping a rendered widget (lines 235-244). *)
Definition widget_resource (html : string) : json :=
  JObj [("content", JArr [JObj [
    ("type", JStr "resource");
    ("resource", JObj [("uri", JStr "feedback://widget");
                       ("mimeType", JStr "text/html+skybridge");
                       ("text", JStr html)])]])].

(** A JSON-RPC response: a dict with [jsonrpc] "2.0", the id [rid], and
    exactly one of the keys [result] and [error]. *)
Definition envelope_ok (r : json) (rid : json) : Prop :=
  exists kvs, r = JObj kvs /\
    assoc kvs "jsonrpc" = Some (JStr "2.0") /\
    assoc kvs "id" = Some rid /\
    match assoc kvs "result", assoc kvs "error" with
    | Some _, None | None, Some _ => True
    | _, _ => False
    end.

(** A body fitting the field types of [JsonRpcRequest] (lines 40-44)
    as pydantic 2 validates them: a dict with [jsonrpc] absent or a
    string, [method] a string, [params] absent, null or a dict, and [id]
    absent, null, an int or a string (a bool is taken as an int). *)
Definition envelope_conforms (b : json) : bool :=
  match b with
  | JObj kvs =>
      match assoc kvs "jsonrpc" with None | Some (JStr _) => true | _ => false end &&
      match assoc kvs "method" with Some (JStr _) => true | _ => false end &&
      match assoc kvs "params" with None | Some JNull | Some (JObj _) => true | _ => false end &&
      match assoc kvs "id" with
      | None | Some JNull | Some (JInt _) | Some (JStr _) | Some (JBool _) => true
      | _ => false
      end
  | _ => false
  end.

(** * Properties *)

Lemma group_loop_step (x : json) (rest : list json) (g : grouped) :
  priority_tolerated x = true ->
  group_loop (x :: rest) g =
  group_loop rest (mk_grouped (g_critical g ++ filter (in_bucket "critical") [x])
                              (g_improvement g ++ filter (in_bucket "improvement") [x])
                              (g_nice_to_have g ++ filter (in_bucket "nice_to_have") [x])).
Proof.
  destruct x as [| | | | |kvs]; try discriminate. simpl.
  unfold in_bucket, item_priority, dict_get, py_in_keys.
  destruct (assoc kvs "priority") as [v|] eqn:Hp; intro Ht.
  - destruct v as [|b|z|p|xs|ys]; simpl in Ht |- *; try discriminate;
      try (rewrite !app_nil_r; destruct g; reflexivity).
    destruct (String.eqb p "critical") eqn:E1.
    { apply String.eqb_eq in E1; subst. rewrite !app_nil_r. reflexivity. }
    destruct (String.eqb p "improvement") eqn:E2.
    { apply String.eqb_eq in E2; subst. rewrite !app_nil_r. reflexivity. }
    destruct (String.eqb p "nice_to_have") eqn:E3.
    { apply String.eqb_eq in E3; subst. rewrite !app_nil_r. reflexivity. }
    simpl. rewrite !app_nil_r. destruct g; reflexivity.
  - simpl. rewrite !app_nil_r. reflexivity.
Qed.

Lemma group_loop_filter (objs : list json) (g : grouped) :
  forallb priority_tolerated objs = true ->
  group_loop objs g =
  Ok (mk_grouped (g_critical g ++ filter (in_bucket "critical") objs)
                 (g_improvement g ++ filter (in_bucket "improvement") objs)
                 (g_nice_to_have g ++ filter (in_bucket "nice_to_have") objs)).
Proof.
  revert g. induction objs as [|x rest IH]; intros g H.
  - simpl. rewrite !app_nil_r. destruct g; reflexivity.
  - simpl in H. apply andb_true_iff in H as [Hx Hrest].
    rewrite group_loop_step by exact Hx. rewrite IH by exact Hrest.
    cbn [g_critical g_improvement g_nice_to_have].
    change (x :: rest) with ([x] ++ rest)%list. rewrite !filter_app, !app_assoc. reflexivity.
Qed.

Lemma in_bucket_recognized (k : string) (x : json) :
  In k grouped_keys -> in_bucket k x = true -> recognized x = true.
Proof.
  unfold in_bucket, recognized. destruct (item_priority x); try discriminate.
  intros Hk Hb. apply String.eqb_eq in Hb. subst. apply existsb_exists.
  exists k. split; [exact Hk | apply String.eqb_refl].
Qed.

Lemma length_filter_recognized_one (x : json) :
  length (filter recognized [x]) =
  length (filter (in_bucket "critical") [x]) + length (filter (in_bucket "improvement") [x])
  + length (filter (in_bucket "nice_to_have") [x]).
Proof.
  unfold recognized, in_bucket, grouped_keys. simpl.
  destruct (item_priority x) as [| | |p| |]; try reflexivity. simpl.
  destruct (String.eqb p "critical") eqn:E1;
    [apply String.eqb_eq in E1; subst; reflexivity|].
  destruct (String.eqb p "improvement") eqn:E2;
    [apply String.eqb_eq in E2; subst; reflexivity|].
  destruct (String.eqb p "nice_to_have"); reflexivity.
Qed.

Lemma length_filter_recognized (objs : list json) :
  length (filter recognized objs) =
  length (filter (in_bucket "critical") objs) + length (filter (in_bucket "improvement") objs)
  + length (filter (in_bucket "nice_to_have") objs).
Proof.
  induction objs as [|x rest IH]; [reflexivity|].
  change (x :: rest) with ([x] ++ rest)%list.
  rewrite !filter_app, !length_app, IH, length_filter_recognized_one. lia.
Qed.

(** C1 (counterexample): a record whose priority is a JSON array is not
    one of the three keys, yet the Renderer does not exclude it: the
    membership test [priority in grouped] raises [TypeError] and no HTML
    is produced. *)
Lemma C1_list_priority_raises :
  recognized (JObj [("priority", JArr [])]) = false /\
  generate_html_widget (JArr [JObj [("priority", JArr [])]])
  = Raise (TypeError "unhashable type: 'list'").
Proof. split; reflexivity. Qed.

(** C1 (amended): for records (dicts) whose priority is absent or a
    hashable value, the Renderer's buckets are, in input order, the
    records whose priority, read as [item.get("priority", "nice_to_have")],
    equals the bucket's key; a record whose priority is none of the three
    keys lies in no bucket; the total is the number of recognised records
    and the sum of the three bucket sizes; the HTML is rendered from these
    buckets alone. *)
Theorem C1_render_buckets (objs : list json) :
  forallb priority_tolerated objs = true ->
  exists g,
    group_loop objs grouped_init = Ok g /\
    g_critical g = filter (in_bucket "critical") objs /\
    g_improvement g = filter (in_bucket "improvement") objs /\
    g_nice_to_have g = filter (in_bucket "nice_to_have") objs /\
    (forall x, recognized x = false ->
       ~ In x (g_critical g) /\ ~ In x (g_improvement g) /\ ~ In x (g_nice_to_have g)) /\
    total g = length (filter recognized objs) /\
    total g = length (g_critical g) + length (g_improvement g) + length (g_nice_to_have g) /\
    generate_html_widget (JArr objs) = render_widget g.
Proof.
  intro H. rewrite (group_loop_filter objs grouped_init H). simpl.
  eexists. split; [reflexivity|].
  split; [reflexivity|]. split; [reflexivity|]. split; [reflexivity|].
  split.
  { intros x Hx. cbn [g_critical g_improvement g_nice_to_have].
    repeat split; intro Hin; apply filter_In in Hin as [_ Hb];
      (eapply in_bucket_recognized in Hb; [congruence | simpl; tauto]). }
  split.
  { unfold total, counts, grouped_get. simpl. symmetry. apply length_filter_recognized. }
  split; [reflexivity|].
  unfold generate_html_widget. simpl. rewrite (group_loop_filter objs grouped_init H).
  reflexivity.
Qed.

Lemma C1_render_buckets_witness :
  forallb priority_tolerated
    [JObj [("priority", JStr "critical")]; JObj [("priority", JStr "urgent")];
     JObj [("item", JStr "x")]; JObj [("priority", JInt 3)]] = true /\
  exists g,
    group_loop [JObj [("priority", JStr "critical")]; JObj [("priority", JStr "urgent")];
                JObj [("item", JStr "x")]; JObj [("priority", JInt 3)]] grouped_init = Ok g /\
    total g = 2.
Proof.
  split; [reflexivity|].
  destruct (C1_render_buckets
              [JObj [("priority", JStr "critical")]; JObj [("priority", JStr "urgent")];
               JObj [("item", JStr "x")]; JObj [("priority", JInt 3)]] eq_refl)
    as (g & Hg & _ & _ & _ & _ & Ht & _).
  exists g. split; [exact Hg|]. rewrite Ht. reflexivity.
Defined.

Lemma rest_counts_incr_sizes (g : grouped) (p : string) (x : json) :
  rest_counts_incr (grouped_sizes g) p = grouped_sizes (grouped_append g p x).
Proof.
  destruct g as [c i n].
  unfold rest_counts_incr, grouped_append, grouped_sizes, counts, grouped_get. simpl.
  destruct (String.eqb p "critical"); [|destruct (String.eqb p "improvement")];
    simpl; rewrite ?length_app; simpl; f_equal; lia.
Qed.

Lemma count_loop_sizes (objs : list json) (g : grouped) :
  count_loop objs (grouped_sizes g) =
  (let* g' := group_loop objs g in Ok (grouped_sizes g')).
Proof.
  revert g. induction objs as [|x rest IH]; intro g; [reflexivity|]. simpl.
  destruct (py_get x "priority" (JStr "nice_to_have")) as [pr|e]; simpl; [|reflexivity].
  destruct (py_in_keys grouped_keys pr) as [[|]|e]; simpl; try reflexivity.
  - destruct pr; try apply IH. rewrite (rest_counts_incr_sizes g s x). apply IH.
  - apply IH.
Qed.

(** C3: on every sequence of records, the counting loop of
    [process_feedback] yields exactly the sizes of the buckets built by
    [generate_html_widget] (and raises exactly when the grouping raises). *)
Theorem C3_rest_counts_match_buckets (objs : list json) :
  count_loop objs (mk_counts 0 0 0) =
  (let* g := group_loop objs grouped_init in Ok (grouped_sizes g)).
Proof. exact (count_loop_sizes objs grouped_init). Qed.

(** C9: a record with no [priority] key is put in the nice_to_have
    bucket by the Renderer (so it is counted there and rendered in that
    section) and counted as nice_to_have by the REST counting loop. *)
Theorem C9_missing_priority_is_nice_to_have
    (kvs : list (string * json)) (rest : list json) (g : grouped) (c : rest_counts) :
  assoc kvs "priority" = None ->
  group_loop (JObj kvs :: rest) g = group_loop rest (grouped_append g "nice_to_have" (JObj kvs)) /\
  g_nice_to_have (grouped_append g "nice_to_have" (JObj kvs)) = (g_nice_to_have g ++ [JObj kvs])%list /\
  count_loop (JObj kvs :: rest) c = count_loop rest (rest_counts_incr c "nice_to_have").
Proof.
  intro H. simpl. unfold dict_get. rewrite H. repeat split; reflexivity.
Qed.

Lemma C9_missing_priority_is_nice_to_have_witness :
  assoc [("item", JStr "x")] "priority" = None /\
  group_loop [JObj [("item", JStr "x")]] grouped_init
  = Ok (mk_grouped [] [] [JObj [("item", JStr "x")]]).
Proof.
  split; [reflexivity|].
  destruct (C9_missing_priority_is_nice_to_have [("item", JStr "x")] [] grouped_init
              (mk_counts 0 0 0) eq_refl) as [H _].
  rewrite H. reflexivity.
Defined.

Lemma render_card_ok (x : json) :
  card_tolerated x = true -> exists s, render_card x = Ok s.
Proof.
  destruct x as [| | | | |kvs]; try discriminate. simpl.
  unfold render_card, py_get, dict_get, bind.
  destruct (assoc kvs "category") as [v|]; intro H; [|eexists; reflexivity].
  unfold category_emoji_get. rewrite H.
  destruct v; try (eexists; reflexivity).
  destruct (find _ CATEGORY_EMOJIS); eexists; reflexivity.
Qed.

Lemma render_cards_ok (items : list json) :
  forallb card_tolerated items = true -> exists ss, render_cards items = Ok ss.
Proof.
  induction items as [|x rest IH]; intro H; [eexists; reflexivity|].
  simpl in H. apply andb_true_iff in H as [Hx Hr].
  destruct (render_card_ok x Hx) as [c Hc]. destruct (IH Hr) as [ss Hss].
  exists (c :: ss). simpl. rewrite Hc. simpl. rewrite Hss. reflexivity.
Qed.

Lemma render_items_ok (items : list json) :
  forallb card_tolerated items = true -> exists s, render_items items = Ok s.
Proof.
  intro H. destruct items as [|x rest]; [eexists; reflexivity|].
  destruct (render_cards_ok (x :: rest) H) as [ss Hss].
  unfold render_items. rewrite Hss. eexists; reflexivity.
Qed.

Lemma render_widget_ok (g : grouped) :
  forallb card_tolerated (g_critical g) = true ->
  forallb card_tolerated (g_improvement g) = true ->
  forallb card_tolerated (g_nice_to_have g) = true ->
  exists html, render_widget g = Ok html.
Proof.
  intros Hc Hi Hn.
  destruct (render_items_ok _ Hc) as [sc Hsc].
  destruct (render_items_ok _ Hi) as [si Hsi].
  destruct (render_items_ok _ Hn) as [sn Hsn].
  unfold render_widget, render_sections, render_section, grouped_get. simpl.
  rewrite Hsc. simpl. rewrite Hsi. simpl. rewrite Hsn. simpl.
  eexists; reflexivity.
Qed.

Lemma forallb_filter_keep (f p : json -> bool) (l : list json) :
  forallb f l = true -> forallb f (filter p l) = true.
Proof.
  intro H. apply forallb_forall. intros x Hx. apply filter_In in Hx as [Hx _].
  exact (proj1 (forallb_forall f l) H x Hx).
Qed.

Lemma generate_html_widget_ok (objs : list json) :
  forallb priority_tolerated objs = true ->
  forallb card_tolerated objs = true ->
  exists g html,
    group_loop objs grouped_init = Ok g /\ render_widget g = Ok html /\
    generate_html_widget (JArr objs) = Ok html.
Proof.
  intros Hp Hc.
  pose proof (group_loop_filter objs grouped_init Hp) as Hg. simpl in Hg.
  destruct (render_widget_ok
              (mk_grouped (filter (in_bucket "critical") objs)
                          (filter (in_bucket "improvement") objs)
                          (filter (in_bucket "nice_to_have") objs)))
    as [html Hh]; simpl; try apply forallb_filter_keep; try exact Hc.
  do 2 eexists. split; [exact Hg|]. split; [exact Hh|].
  unfold generate_html_widget. simpl. rewrite Hg. simpl. exact Hh.
Qed.

Lemma filter_keep_all (f : json -> bool) (l : list json) :
  forallb f l = true -> filter f l = l.
Proof.
  induction l as [|x rest IH]; intro H; [reflexivity|].
  simpl in H |- *. apply andb_true_iff in H as [Hx Hr]. rewrite Hx, IH by exact Hr.
  reflexivity.
Qed.

Lemma item_dict_tolerated (x : FeedbackItem) :
  priority_tolerated (item_dict x) = true /\ card_tolerated (item_dict x) = true /\
  recognized (item_dict x) = true.
Proof. destruct x as [it [] [] q]; repeat split. Qed.

(** C2: every request the pydantic model accepts is answered; its
    [total_items] is the number of items whose priority is one of the
    three recognised values, and the three per-priority counts add up to
    [total_items]. *)
Theorem C2_rest_total_items (feedback_items : list FeedbackItem) :
  exists r,
    process_feedback feedback_items = Ok r /\
    total_items r = length (filter recognized (map item_dict feedback_items)) /\
    critical_count r + improvement_count r + nice_to_have_count r = total_items r.
Proof.
  set (objs := map item_dict feedback_items).
  assert (Hp : forallb priority_tolerated objs = true /\ forallb card_tolerated objs = true /\
               forallb recognized objs = true).
  { subst objs. induction feedback_items as [|x rest IH]; [repeat split|].
    cbn [map forallb]. destruct (item_dict_tolerated x) as (H1 & H2 & H3). rewrite H1, H2, H3.
    exact IH. }
  destruct Hp as (Hp & Hc & Hr).
  destruct (generate_html_widget_ok objs Hp Hc) as (g & html & Hg & _ & Hh).
  pose proof (count_loop_sizes objs grouped_init) as Hcnt. rewrite Hg in Hcnt. simpl in Hcnt.
  unfold process_feedback. fold objs. rewrite Hh. simpl.
  change (mk_counts 0 0 0) with (grouped_sizes grouped_init). rewrite Hcnt. simpl.
  eexists. split; [reflexivity|]. simpl.
  rewrite (filter_keep_all recognized objs Hr). split; [reflexivity|].
  rewrite (group_loop_filter objs grouped_init Hp) in Hg. injection Hg as <-.
  unfold counts, grouped_get. simpl.
  rewrite <- length_filter_recognized, (filter_keep_all recognized objs Hr). reflexivity.
Qed.

(** C4 (counterexample): a record with every field missing does not get
    the empty string for its category: the card shows the category "UI"
    with the UI glyph, where an empty category would give the pin glyph
    and an empty label. *)
Lemma C4_missing_category_is_UI :
  render_card (JObj []) =
    Ok (card_0 ++ "🎨" ++ card_1 ++ "UI" ++ card_2 ++ EmptyString ++ card_3
          ++ EmptyString ++ card_4) /\
  render_card (JObj []) <>
    Ok (card_0 ++ "📌" ++ card_1 ++ EmptyString ++ card_2 ++ EmptyString ++ card_3
          ++ EmptyString ++ card_4).
Proof.
  assert (H : render_card (JObj []) =
    Ok (card_0 ++ "🎨" ++ card_1 ++ "UI" ++ card_2 ++ EmptyString ++ card_3
          ++ EmptyString ++ card_4)) by reflexivity.
  split; [exact H|]. rewrite H. intro E. vm_compute in E. discriminate E.
Qed.

(** C4 (amended): on a sequence of records (dicts) whose priority and
    category, when present, are hashable values, the Renderer raises no
    error; in the card of such a record a missing [item] or
    [original_quote] is rendered as the empty string, a missing
    [category] as "UI" with the UI glyph, and a record without priority
    is put in the nice_to_have bucket. *)
Theorem C4_missing_fields_defaults (objs : list json) (kvs : list (string * json)) :
  forallb priority_tolerated objs = true ->
  forallb card_tolerated objs = true ->
  card_tolerated (JObj kvs) = true ->
  (exists html, generate_html_widget (JArr objs) = Ok html) /\
  match assoc kvs "category" with
  | None =>
      render_card (JObj kvs) =
        Ok (card_0 ++ "🎨" ++ card_1 ++ "UI" ++ card_2 ++ text_or_empty kvs "item" ++ card_3
              ++ text_or_empty kvs "original_quote" ++ card_4)
  | Some c =>
      exists glyph, render_card (JObj kvs) =
        Ok (card_0 ++ glyph ++ card_1 ++ py_str c ++ card_2 ++ text_or_empty kvs "item" ++ card_3
              ++ text_or_empty kvs "original_quote" ++ card_4)
  end /\
  (assoc kvs "priority" = None -> in_bucket "nice_to_have" (JObj kvs) = true).
Proof.
  intros Hp Hc Hk. split; [|split].
  - destruct (generate_html_widget_ok objs Hp Hc) as (g & html & _ & _ & H).
    exists html. exact H.
  - assert (Ht : forall k, py_str (dict_get kvs k (JStr EmptyString)) = text_or_empty kvs k).
    { intro k. unfold dict_get, text_or_empty. destruct (assoc kvs k); reflexivity. }
    unfold render_card. cbn [py_get bind]. rewrite !Ht.
    simpl in Hk. unfold dict_get. destruct (assoc kvs "category") as [c|].
    + unfold category_emoji_get. rewrite Hk.
      destruct c; try (eexists; reflexivity).
      destruct (find _ CATEGORY_EMOJIS); eexists; reflexivity.
    + reflexivity.
  - intro H. unfold in_bucket, item_priority, dict_get. rewrite H. reflexivity.
Qed.

Lemma C4_missing_fields_defaults_witness :
  forallb priority_tolerated [JObj [("item", JStr "x")]] = true /\
  forallb card_tolerated [JObj [("item", JStr "x")]] = true /\
  card_tolerated (JObj [("item", JStr "x")]) = true /\
  render_card (JObj [("item", JStr "x")]) =
    Ok (card_0 ++ "🎨" ++ card_1 ++ "UI" ++ card_2 ++ "x" ++ card_3 ++ EmptyString ++ card_4).
Proof.
  split; [reflexivity|]. split; [reflexivity|]. split; [reflexivity|].
  destruct (C4_missing_fields_defaults [JObj [("item", JStr "x")]] [("item", JStr "x")]
              eq_refl eq_refl eq_refl) as (_ & H & _).
  exact H.
Defined.

Ltac split_andb :=
  repeat match goal with
         | H : _ && _ = true |- _ => apply andb_true_iff in H; destruct H
         end.

Ltac string_field f k :=
  destruct (assoc f k) as [[| | |? | |]|] eqn:?; simpl in *; try discriminate.

Lemma feedback_item_schema_iff (x : json) :
  schema_valid feedback_item_schema x = true <-> record_conforms x.
Proof.
  split.
  - intro H. destruct x as [| | | | |f]; simpl in H; try discriminate H.
    split_andb.
    string_field f "item". string_field f "category". string_field f "priority".
    string_field f "original_quote".
    split_andb.
    exists f. split; [reflexivity|].
    repeat split; eauto.
    + match goal with
      | H : (_ =? "UI") || _ = true |- _ =>
          apply orb_true_iff in H as [H|H]; [apply String.eqb_eq in H; subst; exists UI; assumption|];
          apply orb_true_iff in H as [H|H]; [apply String.eqb_eq in H; subst; exists UX; assumption|];
          apply orb_true_iff in H as [H|H]; [apply String.eqb_eq in H; subst; exists Copy; assumption|];
          apply orb_true_iff in H as [H|H]; [apply String.eqb_eq in H; subst; exists Tech; assumption|];
          discriminate H
      end.
    + match goal with
      | H : (_ =? "critical") || _ = true |- _ =>
          apply orb_true_iff in H as [H|H];
            [apply String.eqb_eq in H; subst; exists critical; assumption|];
          apply orb_true_iff in H as [H|H];
            [apply String.eqb_eq in H; subst; exists improvement; assumption|];
          apply orb_true_iff in H as [H|H];
            [apply String.eqb_eq in H; subst; exists nice_to_have; assumption|];
          discriminate H
      end.
  - intros (f & -> & [si Hi] & [c Hc] & [p Hp] & [sq' Hq]).
    simpl. rewrite Hi, Hc, Hp, Hq. destruct c, p; reflexivity.
Qed.

Lemma input_schema_unfold (v : json) :
  schema_valid input_schema v =
  match v with
  | JObj kvs =>
      match assoc kvs "feedback_items" with
      | Some (JArr xs) => forallb (schema_valid feedback_item_schema) xs
      | _ => false
      end
  | _ => false
  end.
Proof.
  destruct v as [| | | | |kvs]; try reflexivity. simpl.
  destruct (assoc kvs "feedback_items") as [[| | | | xs |]|]; try reflexivity.
  rewrite !andb_true_r. reflexivity.
Qed.

Lemma input_schema_iff (v : json) :
  schema_valid input_schema v = true <-> arguments_conform v.
Proof.
  rewrite input_schema_unfold. split.
  - destruct v as [| | | | |kvs]; try discriminate.
    destruct (assoc kvs "feedback_items") as [[| | | | xs |]|] eqn:E; try discriminate.
    intro H. exists kvs, xs. split; [reflexivity|]. split; [exact E|].
    apply Forall_forall. intros x Hx.
    apply feedback_item_schema_iff. exact (proj1 (forallb_forall _ xs) H x Hx).
  - intros (kvs & xs & -> & E & Hall). rewrite E.
    apply forallb_forall. intros x Hx. apply feedback_item_schema_iff.
    exact (proj1 (Forall_forall _ xs) Hall x Hx).
Qed.

(** C5 (counterexample): the catalog's input schema accepts an empty
    [feedback_items] array and a record with a fifth key, while a
    [minItems] bound would reject the empty array. *)
Lemma C5_schema_admits_empty_and_extra_keys :
  handle_tools_list = JObj [("tools", JArr [TOOL_DEFINITION])] /\
  schema_valid input_schema (JObj [("feedback_items", JArr [])]) = true /\
  schema_valid input_schema
    (JObj [("feedback_items",
            JArr [JObj [("item", JStr "a"); ("category", JStr "UI");
                        ("priority", JStr "critical"); ("original_quote", JStr "q");
                        ("extra", JInt 1)]])]) = true /\
  schema_valid (JObj [("type", JStr "array"); ("minItems", JInt 1)]) (JArr []) = false.
Proof. repeat split; reflexivity. Qed.

(** C5 (amended): [tools/list] returns a fixed one-element catalog whose
    entry carries the name [process_meeting_feedback], a description and
    an input schema; a value satisfies that schema exactly when it is a
    dict whose [feedback_items] is an array (possibly empty) of dicts each
    carrying [item], [category], [priority] and [original_quote] as
    strings, with category and priority in their closed enumerations. *)
Theorem C5_tools_list_catalog :
  exists tool,
    handle_tools_list = JObj [("tools", JArr [JObj tool])] /\
    assoc tool "name" = Some (JStr "process_meeting_feedback") /\
    (exists d, assoc tool "description" = Some (JStr d)) /\
    assoc tool "inputSchema" = Some input_schema /\
    (forall v, schema_valid input_schema v = true <-> arguments_conform v).
Proof.
  eexists. split; [reflexivity|]. split; [reflexivity|].
  split; [eexists; reflexivity|]. split; [reflexivity|].
  exact input_schema_iff.
Qed.

(** C6: when the tool name is the known one, an exception raised while
    extracting [feedback_items] or rendering is caught by
    [handle_tools_call] and becomes a tool result with [isError] true and
    a text message; the JSON-RPC response carries it as its [result]. *)
Theorem C6_render_exception_is_tool_error
    (params : list (string * json)) (e : py_exc) (jr : string) (rid : option rpc_id) :
  dict_get params "name" JNull = JStr "process_meeting_feedback" ->
  (let* fi := py_get (dict_get params "arguments" (JObj [])) "feedback_items" (JArr []) in
   generate_html_widget fi) = Raise e ->
  handle_tools_call params =
    JObj [("isError", JBool true);
          ("content", text_content ("Error processing feedback: " ++ str_exc e))] /\
  mcp_dispatch (mk_request jr "tools/call" (Some params) rid) =
    JObj [("jsonrpc", JStr "2.0"); ("id", id_json rid);
          ("result", JObj [("isError", JBool true);
                           ("content", text_content ("Error processing feedback: " ++ str_exc e))])].
Proof.
  intros Hn Hr.
  assert (Hc : handle_tools_call params =
    JObj [("isError", JBool true);
          ("content", text_content ("Error processing feedback: " ++ str_exc e))]).
  { unfold handle_tools_call. rewrite Hn. simpl. rewrite Hr. reflexivity. }
  split; [exact Hc|].
  unfold mcp_dispatch. simpl. rewrite Hc. reflexivity.
Qed.

Lemma C6_render_exception_is_tool_error_witness :
  exists r,
    mcp_dispatch (mk_request "2.0" "tools/call"
      (Some [("name", JStr "process_meeting_feedback");
             ("arguments", JObj [("feedback_items", JInt 5)])]) (Some (IdInt 1))) = r /\
    r = JObj [("jsonrpc", JStr "2.0"); ("id", JInt 1);
              ("result", JObj [("isError", JBool true);
                               ("content", text_content
                                  ("Error processing feedback: 'int' object is not iterable"))])].
Proof.
  eexists. split; [reflexivity|].
  destruct (C6_render_exception_is_tool_error
              [("name", JStr "process_meeting_feedback");
               ("arguments", JObj [("feedback_items", JInt 5)])]
              (TypeError "'int' object is not iterable") "2.0" (Some (IdInt 1))
              eq_refl eq_refl) as [_ H].
  exact H.
Defined.

(** C7: for [tools/call] with any name other than the known tool, the
    response echoes the request id and carries, as its [result] and with
    no [error] key, a tool result with [isError] true whose text names
    the unknown tool. *)
Theorem C7_unknown_tool_is_tool_error
    (params : option (list (string * json))) (jr : string) (rid : option rpc_id) :
  let name := dict_get (match params with Some p => p | None => [] end) "name" JNull in
  name <> JStr "process_meeting_feedback" ->
  mcp_dispatch (mk_request jr "tools/call" params rid) =
    JObj [("jsonrpc", JStr "2.0"); ("id", id_json rid);
          ("result", JObj [("isError", JBool true);
                           ("content", text_content ("Unknown tool: " ++ py_str name))])].
Proof.
  intros name Hn. unfold mcp_dispatch, handle_tools_call. simpl. fold name.
  destruct name as [| | |s| |] eqn:En; try reflexivity.
  destruct (String.eqb s "process_meeting_feedback") eqn:Es; [|reflexivity].
  apply String.eqb_eq in Es. subst s. contradiction.
Qed.

Lemma C7_unknown_tool_is_tool_error_witness :
  mcp_dispatch (mk_request "2.0" "tools/call" (Some [("name", JStr "nonexistent_tool")])
                           (Some (IdStr "req-7"))) =
    JObj [("jsonrpc", JStr "2.0"); ("id", JStr "req-7");
          ("result", JObj [("isError", JBool true);
                           ("content", text_content "Unknown tool: nonexistent_tool")])].
Proof.
  apply (C7_unknown_tool_is_tool_error (Some [("name", JStr "nonexistent_tool")]) "2.0"
           (Some (IdStr "req-7"))).
  discriminate.
Defined.

(** C8: a well-formed request whose method is none of the four handled
    ones gets a response with a protocol-level error of code -32601 and a
    message naming the method, and no [result] key. *)
Theorem C8_unknown_method_error (req : JsonRpcRequest) :
  ~ In (method req) ["initialize"; "tools/list"; "tools/call"; "notifications/initialized"] ->
  mcp_dispatch req =
    JObj [("jsonrpc", JStr "2.0"); ("id", id_json (id req));
          ("error", JObj [("code", JInt (-32601)%Z);
                          ("message", JStr ("Method not found: " ++ method req))])].
Proof.
  intro Hm. unfold mcp_dispatch.
  destruct (String.eqb (method req) "notifications/initialized") eqn:E4;
    [apply String.eqb_eq in E4; exfalso; apply Hm; rewrite E4; simpl; tauto|].
  destruct (String.eqb (method req) "initialize") eqn:E1;
    [apply String.eqb_eq in E1; exfalso; apply Hm; rewrite E1; simpl; tauto|].
  destruct (String.eqb (method req) "tools/list") eqn:E2;
    [apply String.eqb_eq in E2; exfalso; apply Hm; rewrite E2; simpl; tauto|].
  destruct (String.eqb (method req) "tools/call") eqn:E3;
    [apply String.eqb_eq in E3; exfalso; apply Hm; rewrite E3; simpl; tauto|].
  reflexivity.
Qed.

Lemma C8_unknown_method_error_witness :
  mcp_dispatch (mk_request "2.0" "resources/list" None (Some (IdInt 3))) =
    JObj [("jsonrpc", JStr "2.0"); ("id", JInt 3);
          ("error", JObj [("code", JInt (-32601)%Z);
                          ("message", JStr "Method not found: resources/list")])].
Proof.
  apply (C8_unknown_method_error (mk_request "2.0" "resources/list" None (Some (IdInt 3)))).
  simpl. intuition discriminate.
Defined.

(** C10: a body that parses as JSON but does not fit the field types of
    [JsonRpcRequest] (not a dict, [method] absent or not a string,
    [jsonrpc] not a string, [params] not a dict or null, [id] not an int,
    a string or null) makes the construction of [JsonRpcRequest] raise,
    and the endpoint lets that exception out instead of returning any
    envelope; every other body gets an envelope. *)
Theorem C10_nonconforming_body_raises (b : json) :
  envelope_conforms b = false <->
  exists e, JsonRpcRequest_of b = Raise e /\ mcp_endpoint (Some b) = Raise e.
Proof.
  unfold envelope_conforms, mcp_endpoint. split.
  - destruct b as [| | | | |kvs]; intro H; try (eexists; split; reflexivity).
    unfold JsonRpcRequest_of.
    destruct (assoc kvs "jsonrpc") as [[| | |j| |]|]; cbn [bind];
      try (eexists; split; reflexivity);
    (destruct (assoc kvs "method") as [[| | |m| |]|]; cbn [bind];
      try (eexists; split; reflexivity));
    (destruct (assoc kvs "params") as [[| | | | |p]|]; cbn [bind];
      try (eexists; split; reflexivity));
    (destruct (assoc kvs "id") as [[| | | | |]|]; cbn [bind];
      try (eexists; split; reflexivity)); discriminate H.
  - intros (e & He & _). destruct b as [| | | | |kvs]; try reflexivity.
    unfold JsonRpcRequest_of in He.
    destruct (assoc kvs "jsonrpc") as [[| | |j| |]|]; cbn [bind] in He |- *; try reflexivity;
    (destruct (assoc kvs "method") as [[| | |m| |]|]; cbn [bind] in He |- *; try reflexivity);
    (destruct (assoc kvs "params") as [[| | | | |p]|]; cbn [bind] in He |- *; try reflexivity);
    (destruct (assoc kvs "id") as [[| | | | |]|]; cbn [bind] in He |- *; try reflexivity);
    discriminate He.
Qed.

Lemma C10_nonconforming_body_raises_witness :
  envelope_conforms (JObj [("method", JInt 1)]) = false /\
  (exists e, mcp_endpoint (Some (JObj [("method", JInt 1)])) = Raise e) /\
  envelope_conforms (JObj [("method", JStr "tools/list"); ("params", JArr [])]) = false /\
  (exists e, mcp_endpoint (Some (JObj [("method", JStr "tools/list"); ("params", JArr [])]))
             = Raise e).
Proof.
  split; [reflexivity|]. split.
  - destruct (proj1 (C10_nonconforming_body_raises (JObj [("method", JInt 1)])) eq_refl)
      as (e & _ & H).
    exists e. exact H.
  - split; [reflexivity|].
    destruct (proj1 (C10_nonconforming_body_raises
                       (JObj [("method", JStr "tools/list"); ("params", JArr [])])) eq_refl)
      as (e & _ & H).
    exists e. exact H.
Defined.

(** * Further properties of the renderer, the handlers and the endpoints *)

Lemma group_loop_app (xs ys : list json) (g : grouped) :
  group_loop (xs ++ ys) g = (let* g' := group_loop xs g in group_loop ys g').
Proof.
  revert g. induction xs as [|x rest IH]; intro g; [reflexivity|]. simpl.
  destruct (py_get x "priority" (JStr "nice_to_have")) as [pr|e]; simpl; [|reflexivity].
  destruct (py_in_keys grouped_keys pr) as [b|e]; simpl; [apply IH|reflexivity].
Qed.

Lemma in_bucket_unrecognized (k : string) (x : json) :
  In k grouped_keys -> recognized x = false -> filter (in_bucket k) [x] = [].
Proof.
  intros Hk Hr. simpl. destruct (in_bucket k x) eqn:E; [|reflexivity].
  rewrite (in_bucket_recognized k x Hk E) in Hr. discriminate.
Qed.

(** X1: an empty sequence renders the empty widget, and so do an empty
    string and an empty dict, which Python iterates as empty sequences. *)
Theorem X1_empty_input_widget :
  generate_html_widget (JArr []) = Ok empty_widget_html /\
  generate_html_widget (JStr EmptyString) = Ok empty_widget_html /\
  generate_html_widget (JObj []) = Ok empty_widget_html.
Proof. repeat split; reflexivity. Qed.

(** X2: inserting anywhere a record whose priority is a hashable value
    other than the three keys leaves the Renderer's outcome unchanged
    (the same HTML, or the same exception), whatever its other fields. *)
Theorem X2_unrecognized_record_invisible (xs ys : list json) (x : json) :
  priority_tolerated x = true -> recognized x = false ->
  generate_html_widget (JArr (xs ++ x :: ys)) = generate_html_widget (JArr (xs ++ ys)).
Proof.
  intros Ht Hr. unfold generate_html_widget. cbn [py_iter bind]. rewrite !group_loop_app.
  destruct (group_loop xs grouped_init) as [g|e]; cbn [bind]; [|reflexivity].
  rewrite (group_loop_step x ys g Ht).
  rewrite !in_bucket_unrecognized by (simpl; tauto).
  rewrite !app_nil_r. destruct g; reflexivity.
Qed.

Lemma X2_unrecognized_record_invisible_witness :
  priority_tolerated (JObj [("priority", JStr "urgent"); ("category", JArr [])]) = true /\
  recognized (JObj [("priority", JStr "urgent"); ("category", JArr [])]) = false /\
  generate_html_widget (JArr [JObj [("priority", JStr "urgent"); ("category", JArr [])]])
  = Ok empty_widget_html.
Proof.
  split; [reflexivity|]. split; [reflexivity|].
  etransitivity;
    [exact (X2_unrecognized_record_invisible [] []
              (JObj [("priority", JStr "urgent"); ("category", JArr [])]) eq_refl eq_refl)
    |reflexivity].
Defined.

(** X3: swapping two adjacent records with different priorities leaves
    the Renderer's outcome unchanged: only the order within a bucket
    matters. *)
Theorem X3_swap_different_priorities (xs ys : list json) (x y : json) :
  priority_tolerated x = true -> priority_tolerated y = true ->
  item_priority x <> item_priority y ->
  generate_html_widget (JArr (xs ++ x :: y :: ys)) =
  generate_html_widget (JArr (xs ++ y :: x :: ys)).
Proof.
  intros Hx Hy Hne. unfold generate_html_widget. cbn [py_iter bind]. rewrite !group_loop_app.
  destruct (group_loop xs grouped_init) as [g|e]; cbn [bind]; [|reflexivity].
  rewrite (group_loop_step x (y :: ys) g Hx), (group_loop_step y ys _ Hy).
  rewrite (group_loop_step y (x :: ys) g Hy), (group_loop_step x ys _ Hx).
  cbn [g_critical g_improvement g_nice_to_have].
  assert (Hc : forall k, (filter (in_bucket k) [x] ++ filter (in_bucket k) [y] =
                          filter (in_bucket k) [y] ++ filter (in_bucket k) [x])%list).
  { intro k. simpl. unfold in_bucket.
    destruct (item_priority x) as [| | |px| |] eqn:Ex; simpl; try (rewrite app_nil_r; reflexivity).
    destruct (item_priority y) as [| | |py| |] eqn:Ey; simpl;
      try (destruct (px =? k); reflexivity).
    destruct (px =? k) eqn:E1; destruct (py =? k) eqn:E2; try reflexivity.
    apply String.eqb_eq in E1, E2. subst. congruence. }
  rewrite <- !app_assoc, !Hc. reflexivity.
Qed.

Lemma X3_swap_different_priorities_witness :
  generate_html_widget (JArr [JObj [("priority", JStr "critical")];
                              JObj [("priority", JStr "improvement")]]) =
  generate_html_widget (JArr [JObj [("priority", JStr "improvement")];
                              JObj [("priority", JStr "critical")]]).
Proof.
  apply (X3_swap_different_priorities [] [] (JObj [("priority", JStr "critical")])
           (JObj [("priority", JStr "improvement")]) eq_refl eq_refl).
  discriminate.
Defined.

(** X4: a record whose category is a hashable value other than the four
    known categories gets the pin glyph, and its category is still printed
    as [str] of the value. *)
Theorem X4_unknown_category_pin (kvs : list (string * json)) (c : json) :
  assoc kvs "category" = Some c -> hashable c = true ->
  (forall s, c = JStr s -> ~ In s ["UI"; "UX"; "Copy"; "Tech"]) ->
  render_card (JObj kvs) =
    Ok (card_0 ++ "📌" ++ card_1 ++ py_str c ++ card_2 ++ text_or_empty kvs "item" ++ card_3
          ++ text_or_empty kvs "original_quote" ++ card_4).
Proof.
  intros Hc Hh Hn.
  assert (Ht : forall k, py_str (dict_get kvs k (JStr EmptyString)) = text_or_empty kvs k).
  { intro k. unfold dict_get, text_or_empty. destruct (assoc kvs k); reflexivity. }
  unfold render_card. cbn [py_get bind]. rewrite !Ht. unfold dict_get. rewrite Hc.
  unfold category_emoji_get. rewrite Hh.
  destruct c as [| | |s| |]; try reflexivity.
  specialize (Hn s eq_refl). simpl.
  destruct (s =? "UI") eqn:E1; [apply String.eqb_eq in E1; subst; simpl in Hn; tauto|].
  destruct (s =? "UX") eqn:E2; [apply String.eqb_eq in E2; subst; simpl in Hn; tauto|].
  destruct (s =? "Copy") eqn:E3; [apply String.eqb_eq in E3; subst; simpl in Hn; tauto|].
  destruct (s =? "Tech") eqn:E4; [apply String.eqb_eq in E4; subst; simpl in Hn; tauto|].
  reflexivity.
Qed.

Lemma X4_unknown_category_pin_witness :
  render_card (JObj [("category", JStr "Design"); ("item", JStr "x")]) =
    Ok (card_0 ++ "📌" ++ card_1 ++ "Design" ++ card_2 ++ "x" ++ card_3 ++ EmptyString ++ card_4).
Proof.
  apply (X4_unknown_category_pin [("category", JStr "Design"); ("item", JStr "x")] (JStr "Design")
           eq_refl eq_refl).
  intros s Hs. injection Hs as <-. simpl. intuition discriminate.
Defined.

(** X5: whatever the method, [mcp_dispatch] answers with an envelope
    carrying [jsonrpc] "2.0", the request's id, and exactly one of
    [result] and [error]. *)
Theorem X5_dispatch_envelope (req : JsonRpcRequest) :
  envelope_ok (mcp_dispatch req) (id_json (id req)).
Proof.
  unfold mcp_dispatch, envelope_ok.
  destruct (String.eqb (method req) "notifications/initialized");
    [eexists; repeat split; reflexivity|].
  destruct (String.eqb (method req) "initialize"); [eexists; repeat split; reflexivity|].
  destruct (String.eqb (method req) "tools/list"); [eexists; repeat split; reflexivity|].
  destruct (String.eqb (method req) "tools/call"); eexists; repeat split; reflexivity.
Qed.



(** X7: a dict body with a string [method], an absent or string
    [jsonrpc], an absent, null or dict [params] and an absent, null or
    integer [id] is answered (no exception) with an envelope echoing that
    id (null when absent). *)
Theorem X7_endpoint_echoes_id (kvs : list (string * json)) (m : string) :
  assoc kvs "method" = Some (JStr m) ->
  match assoc kvs "jsonrpc" with None | Some (JStr _) => True | _ => False end ->
  match assoc kvs "params" with None | Some JNull | Some (JObj _) => True | _ => False end ->
  match assoc kvs "id" with None | Some JNull | Some (JInt _) => True | _ => False end ->
  exists r, mcp_endpoint (Some (JObj kvs)) = Ok r /\
    envelope_ok r (match assoc kvs "id" with Some v => v | None => JNull end).
Proof.
  intros Hm Hj Hp Hi. unfold mcp_endpoint, JsonRpcRequest_of. cbn [bind].
  destruct (assoc kvs "jsonrpc") as [[| | |j| |]|]; try contradiction; cbn [bind];
  rewrite Hm; cbn [bind];
  (destruct (assoc kvs "params") as [[| | | | |p]|]; try contradiction; cbn [bind]);
  (destruct (assoc kvs "id") as [[| |z| | |]|]; try contradiction; cbn [bind]);
  eexists; (split; [reflexivity|]);
  match goal with
  | |- envelope_ok (mcp_dispatch ?req) _ => exact (X5_dispatch_envelope req)
  end.
Qed.

Lemma X7_endpoint_echoes_id_witness :
  exists r, mcp_endpoint (Some (JObj [("method", JStr "tools/list"); ("id", JInt 42)])) = Ok r /\
    envelope_ok r (JInt 42).
Proof.
  exact (X7_endpoint_echoes_id [("method", JStr "tools/list"); ("id", JInt 42)] "tools/list"
           eq_refl I I I).
Defined.

(** X8: with the known tool name and [arguments] a dict whose
    [feedback_items] is an array of records (dicts) with hashable or
    absent priority and category, [tools/call] succeeds: its result is
    the widget resource (URI feedback://widget, MIME type
    text/html+skybridge) holding the Renderer's HTML, with no [isError]. *)
Theorem X8_tools_call_success
    (params args : list (string * json)) (objs : list json) :
  dict_get params "name" JNull = JStr "process_meeting_feedback" ->
  dict_get params "arguments" (JObj []) = JObj args ->
  dict_get args "feedback_items" (JArr []) = JArr objs ->
  forallb priority_tolerated objs = true -> forallb card_tolerated objs = true ->
  exists html, generate_html_widget (JArr objs) = Ok html /\
    handle_tools_call params = widget_resource html.
Proof.
  intros Hn Ha Hf Hp Hc.
  destruct (generate_html_widget_ok objs Hp Hc) as (g & html & _ & _ & Hh).
  exists html. split; [exact Hh|].
  unfold handle_tools_call. rewrite Hn, Ha. simpl. rewrite Hf, Hh. reflexivity.
Qed.

Lemma X8_tools_call_success_witness :
  exists html,
    generate_html_widget (JArr [JObj [("item", JStr "x"); ("priority", JStr "critical")]]) = Ok html /\
    handle_tools_call
      [("name", JStr "process_meeting_feedback");
       ("arguments", JObj [("feedback_items",
                            JArr [JObj [("item", JStr "x"); ("priority", JStr "critical")]])])]
    = widget_resource html.
Proof.
  exact (X8_tools_call_success
           [("name", JStr "process_meeting_feedback");
            ("arguments", JObj [("feedback_items",
                                 JArr [JObj [("item", JStr "x"); ("priority", JStr "critical")]])])]
           [("feedback_items", JArr [JObj [("item", JStr "x"); ("priority", JStr "critical")]])]
           [JObj [("item", JStr "x"); ("priority", JStr "critical")]]
           eq_refl eq_refl eq_refl eq_refl eq_refl).
Defined.

(** X9: with the known tool name, when [arguments] is absent or is a dict
    without [feedback_items], [tools/call] renders the empty widget. *)
Theorem X9_tools_call_no_items_empty_widget (params : list (string * json)) :
  dict_get params "name" JNull = JStr "process_meeting_feedback" ->
  (match dict_get params "arguments" (JObj []) with
   | JObj args => assoc args "feedback_items" = None
   | _ => False
   end) ->
  handle_tools_call params = widget_resource empty_widget_html.
Proof.
  intros Hn Ha. unfold handle_tools_call. rewrite Hn. simpl.
  destruct (dict_get params "arguments" (JObj [])) as [| | | | |args]; try contradiction.
  simpl. unfold dict_get. rewrite Ha. reflexivity.
Qed.

Lemma X9_tools_call_no_items_empty_widget_witness :
  handle_tools_call [("name", JStr "process_meeting_feedback")] = widget_resource empty_widget_html.
Proof.
  apply X9_tools_call_no_items_empty_widget; reflexivity.
Defined.

(** X10: with the known tool name, an [arguments] value that is not a
    dict (for instance JSON null) makes [arguments.get] raise inside the
    try block: the result is a tool error naming the missing [get]. *)
Theorem X10_tools_call_arguments_not_dict (params : list (string * json)) :
  dict_get params "name" JNull = JStr "process_meeting_feedback" ->
  (forall kvs, dict_get params "arguments" (JObj []) <> JObj kvs) ->
  handle_tools_call params =
    JObj [("isError", JBool true);
          ("content", text_content ("Error processing feedback: " ++ sq
             ++ type_name (dict_get params "arguments" (JObj []))
             ++ sq ++ " object has no attribute 'get'"))].
Proof.
  intros Hn Ha. unfold handle_tools_call. rewrite Hn. simpl.
  destruct (dict_get params "arguments" (JObj [])) as [| | | | |kvs]; try reflexivity.
  exfalso. exact (Ha kvs eq_refl).
Qed.

Lemma X10_tools_call_arguments_not_dict_witness :
  handle_tools_call [("name", JStr "process_meeting_feedback"); ("arguments", JNull)] =
    JObj [("isError", JBool true);
          ("content", text_content
             "Error processing feedback: 'NoneType' object has no attribute 'get'")].
Proof.
  apply X10_tools_call_arguments_not_dict; [reflexivity|]. discriminate.
Defined.

(** X11: the REST response's HTML is the widget of buckets whose sizes
    are the response's counts: the badges and the total shown in
    [html_widget] agree with [critical_count], [improvement_count],
    [nice_to_have_count] and [total_items]. *)
Theorem X11_rest_html_matches_counts (feedback_items : list FeedbackItem) :
  exists r g,
    process_feedback feedback_items = Ok r /\
    render_widget g = Ok (html_widget r) /\
    counts g "critical" = critical_count r /\
    counts g "improvement" = improvement_count r /\
    counts g "nice_to_have" = nice_to_have_count r /\
    total g = total_items r.
Proof.
  set (objs := map item_dict feedback_items).
  assert (Hp : forallb priority_tolerated objs = true /\ forallb card_tolerated objs = true /\
               forallb recognized objs = true).
  { subst objs. induction feedback_items as [|x rest IH]; [repeat split|].
    cbn [map forallb]. destruct (item_dict_tolerated x) as (H1 & H2 & H3). rewrite H1, H2, H3.
    exact IH. }
  destruct Hp as (Hp & Hc & Hr).
  destruct (generate_html_widget_ok objs Hp Hc) as (g & html & Hg & Hw & Hh).
  pose proof (count_loop_sizes objs grouped_init) as Hcnt. rewrite Hg in Hcnt. simpl in Hcnt.
  unfold process_feedback. fold objs. rewrite Hh. simpl.
  change (mk_counts 0 0 0) with (grouped_sizes grouped_init). rewrite Hcnt. simpl.
  eexists. exists g. split; [reflexivity|]. simpl.
  split; [exact Hw|]. repeat split.
  rewrite (group_loop_filter objs grouped_init Hp) in Hg. injection Hg as <-.
  unfold total, counts, grouped_get. simpl.
  rewrite <- length_filter_recognized, (filter_keep_all recognized objs Hr). reflexivity.
Qed.
